(** * Verification of the [pgo] plugin commands [show backup] and
      [create postgrescluster] (internal/cmd/show.go, internal/cmd/create.go).

    Shallow embedding in Rocq.  Go strings are [String.string] (a byte
    string: [Ascii.ascii] has eight bits), Go [error] values are [goerror],
    and the calls into the Kubernetes client, the exec transport and the
    YAML library are fields of an explicit environment record, since they are
    external to this repository. *)

From Stdlib Require Import String Ascii ZArith List Bool Lia.
Import ListNotations.
Open Scope string_scope.

(** ** Go values *)

(** A Go [error]; [Error()] is its message. *)
Inductive goerror : Type :=
| GoError (msg : string).

Definition Error (e : goerror) : string :=
  match e with GoError m => m end.

(** [strings.TrimPrefix]: [s] without a leading [prefix], or [s] itself
    ([if HasPrefix(s, prefix) { return s[len(prefix):] }; return s]). *)
Definition TrimPrefix (s prefix : string) : string :=
  if String.prefix prefix s then substring (String.length prefix) (String.length s) s
  else s.

(** ** Go's [fmt.Sprintf] applied to a format string and no operands

    [cmd.Printf(stdout)] in [newShowBackupCommand] passes the captured output
    as the format and no operands; cobra's [Printf] prints
    [fmt.Sprintf(format)].  This module follows the method [doPrintf] of [pp] of Go's
    [fmt/print.go] for [len(a) = 0]: every verb finds its operand missing, an
    explicit index [[n]] is always bad, [*] width and precision find no
    integer operand, and [parsenum] gives up (jumps to the end of the format)
    once its accumulator exceeds [1e6]. *)
Module GoFmt.

Definition is_digit (c : ascii) : bool :=
  (48 <=? nat_of_ascii c)%nat && (nat_of_ascii c <=? 57)%nat.

Definition digit_value (c : ascii) : Z := Z.of_nat (nat_of_ascii c - 48).

(** [tooLarge] *)
Definition tooLarge (x : Z) : bool := (1000000 <? x)%Z || (x <? -1000000)%Z.

(** [parsenum(s, i, end)] on the format from position [i]: the number, whether
    one was present, and the rest of the format ([None] when the number
    overflowed, where Go returns [end]). *)
Fixpoint parsenum (s : string) (num : Z) (isnum : bool)
  : Z * bool * option string :=
  match s with
  | String c r =>
      if is_digit c then
        if tooLarge num then (0%Z, false, None)
        else parsenum r (num * 10 + digit_value c)%Z true
      else (num, isnum, Some s)
  | EmptyString => (num, isnum, Some EmptyString)
  end.

Definition rest_or_end (r : option string) : string :=
  match r with Some s => s | None => EmptyString end.

(** Position of the first [']'] in [s]. *)
Fixpoint find_close (s : string) : option nat :=
  match s with
  | EmptyString => None
  | String c r =>
      if Ascii.eqb c "]" then Some O
      else option_map S (find_close r)
  end.

(** [p.argNumber(argNum, format, i, 0)] with [parseArgNumber] inlined: the
    rest of the format, the new [goodArgNum] and [found]. *)
Definition argNumber (s : string) (good : bool) : string * bool * bool :=
  match s with
  | String c t =>
      if negb (Ascii.eqb c "[") then (s, good, false)
      else if (String.length s <? 3)%nat then (t, false, false)
      else match find_close t with
           | None => (t, false, false)
           | Some k =>
               let ok :=
                 match parsenum (substring 0 k t) 0 false with
                 | (_, true, Some EmptyString) => true
                 | _ => false
                 end in
               (substring (S k) (String.length t) t, false, ok)
           end
  | EmptyString => (s, good, false)
  end.

(** The flag loop [simpleFormat]. *)
Fixpoint skip_flags (s : string) : string :=
  match s with
  | String c r =>
      if Ascii.eqb c "#" || Ascii.eqb c "0" || Ascii.eqb c "+"
         || Ascii.eqb c "-" || Ascii.eqb c " "
      then skip_flags r else s
  | EmptyString => s
  end.

(** [utf8.RuneError] as written by [writeRune]. *)
Definition rune_error : string :=
  String (ascii_of_nat 239) (String (ascii_of_nat 191)
    (String (ascii_of_nat 189) EmptyString)).

Definition in_range (lo hi : nat) (c : ascii) : bool :=
  (lo <=? nat_of_ascii c)%nat && (nat_of_ascii c <=? hi)%nat.

(** [utf8.DecodeRuneInString] followed by [writeRune]: the bytes written for
    the verb and the rest of the format.  A valid sequence is written back
    unchanged; an invalid one is written as [RuneError] and consumes one
    byte. *)
Definition decode_verb (s : string) : string * string :=
  match s with
  | EmptyString => (EmptyString, EmptyString)
  | String c0 r =>
      let n0 := nat_of_ascii c0 in
      let bad := (rune_error, r) in
      (* size and accepted range of the second byte, from the [first] table *)
      let info : option (nat * nat * nat) :=
        if (n0 <? 128)%nat then Some (1, 0, 0)%nat
        else if (n0 <? 194)%nat then None
        else if (n0 <? 224)%nat then Some (2, 128, 191)%nat
        else if (n0 =? 224)%nat then Some (3, 160, 191)%nat
        else if (n0 <? 237)%nat then Some (3, 128, 191)%nat
        else if (n0 =? 237)%nat then Some (3, 128, 159)%nat
        else if (n0 <? 240)%nat then Some (3, 128, 191)%nat
        else if (n0 =? 240)%nat then Some (4, 144, 191)%nat
        else if (n0 <? 244)%nat then Some (4, 128, 191)%nat
        else if (n0 =? 244)%nat then Some (4, 128, 143)%nat
        else None in
      match info with
      | None => bad
      | Some (1, _, _) => (String c0 EmptyString, r)
      | Some (sz, lo, hi) =>
          match r with
          | EmptyString => bad
          | String c1 r1 =>
              if (String.length s <? sz)%nat || negb (in_range lo hi c1) then bad
              else if (sz <=? 2)%nat then (substring 0 2 s, r1)
              else match r1 with
                   | EmptyString => bad
                   | String c2 r2 =>
                       if negb (in_range 128 191 c2) then bad
                       else if (sz <=? 3)%nat then (substring 0 3 s, r2)
                       else match r2 with
                            | EmptyString => bad
                            | String c3 r3 =>
                                if negb (in_range 128 191 c3) then bad
                                else (substring 0 4 s, r3)
                            end
                   end
          end
      end
  end.

(** One verb: the format just after a ['%'] to what is written and the rest
    of the format. *)
Definition verb0 (s : string) : string * string :=
  let s := skip_flags s in
  let '(s, good, after) := argNumber s true in
  (* width *)
  let '(out, s, good, after) :=
    match s with
    | String c r =>
        if Ascii.eqb c "*" then ("%!(BADWIDTH)", r, good, false)
        else
          let '(_, present, rest) := parsenum s 0 false in
          (EmptyString, rest_or_end rest, if after && present then false else good, after)
    | EmptyString => (EmptyString, EmptyString, good, after)
    end in
  (* precision: only when ['.'] is not the last byte *)
  let '(out, s, good, after) :=
    match s with
    | String c (String _ _ as t) =>
        if Ascii.eqb c "." then
          let good := if after then false else good in
          let '(t, good, after) := argNumber t good in
          match t with
          | String d r =>
              if Ascii.eqb d "*" then (out ++ "%!(BADPREC)", r, good, false)
              else
                let '(_, _, rest) := parsenum t 0 false in
                (out, rest_or_end rest, good, after)
          | EmptyString => (out, EmptyString, good, after)
          end
        else (out, s, good, after)
    | _ => (out, s, good, after)
    end in
  let '(s, good, _) := if after then (s, good, after) else argNumber s good in
  match s with
  | EmptyString => (out ++ "%!(NOVERB)", EmptyString)
  | String c r =>
      if Ascii.eqb c "%" then (out ++ "%", r)
      else
        let '(verb, rest) := decode_verb s in
        if negb good then (out ++ "%!" ++ verb ++ "(BADINDEX)", rest)
        else (out ++ "%!" ++ verb ++ "(MISSING)", rest)
  end.

(** The [formatLoop] of [doPrintf]; every round consumes at least one byte,
    so [length format] rounds suffice. *)
Fixpoint doPrintf (fuel : nat) (s : string) : string :=
  match fuel with
  | O => EmptyString
  | S f =>
      match s with
      | EmptyString => EmptyString
      | String c r =>
          if Ascii.eqb c "%" then
            let '(out, rest) := verb0 r in out ++ doPrintf f rest
          else String c (doPrintf f r)
      end
  end.

Definition Sprintf0 (format : string) : string :=
  doPrintf (String.length format) format.

End GoFmt.

Definition nl : string := String (ascii_of_nat 10) EmptyString.

(** ** A state and error monad for the commands

    The observable effects of a command are what it prints (cobra's
    [cmd.Printf]) and the calls it makes to the pod exec transport; a Go
    [error] returned from [RunE] is the [inl] outcome. *)

(** A call of [PodExec(namespace, pod, container, stdin, stdout, stderr,
    command...)]: namespace, pod name, container and command vector. *)
Definition ExecCall : Type := string * string * string * list string.

Record Obs := mkObs {
  printed : string;
  exec_log : list ExecCall;
}.

Definition obs0 : Obs := mkObs EmptyString [].

Definition M (A : Type) : Type := Obs -> Obs * (goerror + A).

Definition ret {A} (a : A) : M A := fun st => (st, inr a).

Definition bind {A B} (m : M A) (k : A -> M B) : M B :=
  fun st => match m st with
            | (st', inl e) => (st', inl e)
            | (st', inr a) => k a st'
            end.

Notation "x <- m ;; k" := (bind m (fun x => k))
  (at level 61, m at next level, right associativity).
Notation "m ;;; k" := (bind m (fun _ => k))
  (at level 61, right associativity).

(** [return err] *)
Definition fail {A} (e : goerror) : M A := fun st => (st, inl e).

(** [if err != nil { return err }] after a call returning only an error. *)
Definition check (r : option goerror) : M unit :=
  match r with Some e => fail e | None => ret tt end.

(** [if err != nil { return err }] after a call returning a value. *)
Definition lift {A} (r : goerror + A) : M A :=
  match r with inl e => fail e | inr a => ret a end.

(** [cmd.Printf] with its formatting already done. *)
Definition print (s : string) : M unit :=
  fun st => (mkObs (printed st ++ s) (exec_log st), inr tt).

(** ** [pgBackRestInfo] (show.go, lines 162-174) *)

(** The result of a call of an [Executor]: what the command wrote to the
    [stdout] and [stderr] buffers, and the returned [error]. *)
Record ExecResult := mkExecResult {
  res_stdout : string;
  res_stderr : string;
  res_err : option goerror;
}.

(** [type Executor func(stdin io.Reader, stdout, stderr io.Writer,
    command ...string) error].  The only caller passes [stdin = nil] and fresh
    buffers, so an executor maps the command vector to what it writes into
    the buffers and returns, with its effects in [M]. *)
Definition Executor := list string -> M ExecResult.

(** [func (exec Executor) pgBackRestInfo(output, repoNum string)
    (string, string, error)] *)
Definition pgBackRestInfo (exec : Executor) (output repoNum : string)
  : M (string * string * option goerror) :=
  let command := "pgbackrest info --output=" ++ output in
  let command :=
    if negb (String.eqb repoNum "") then command ++ " --repo=" ++ repoNum
    else command in
  r <- exec ["bash"; "-ceu"; "--"; command] ;;
  ret (res_stdout r, res_stderr r, res_err r).

(** ** The [show backup] command (show.go, lines 62-160) *)

(** A pod as the code uses it: [GetNamespace()] and [GetName()]. *)
Record Pod := mkPod {
  pod_namespace : string;
  pod_name : string;
}.

(** Modelled from the spec: [util.PrimaryInstanceLabels] (internal/util, not
    in this excerpt), the label selector of section 4.2 of the spec. *)
Definition PrimaryInstanceLabels (cluster : string) : string :=
  "postgres-operator.crunchydata.com/cluster=" ++ cluster
  ++ ",postgres-operator.crunchydata.com/data=postgres"
  ++ ",postgres-operator.crunchydata.com/role=master".

(** Modelled from the spec: [util.ContainerDatabase] (internal/util, not in
    this excerpt), the constant naming the database container; the spec does
    not give its value, upstream it is ["database"]. *)
Definition ContainerDatabase : string := "database".

(** The calls [RunE] makes outside this repository: loading the REST
    configuration, building the dynamic client, resolving the namespace,
    listing pods by label selector, building the pod executor, and the pod
    exec transport itself ([PodExec namespace pod container command]). *)
Record ShowEnv := mkShowEnv {
  ToRESTConfig : option goerror;
  NewForConfig : option goerror;
  ConfigNamespace : goerror + string;
  ListPods : string -> string -> goerror + list Pod;
  NewPodExecutor : option goerror;
  PodExec : string -> string -> string -> list string -> ExecResult;
}.

(** The [exec] closure of [RunE]: it calls [PodExec] on [pods.Items[0]]. *)
Definition pod_executor (env : ShowEnv) (p : Pod) : Executor :=
  fun command st =>
    let call := (pod_namespace p, pod_name p, ContainerDatabase, command) in
    (mkObs (printed st) (exec_log st ++ [call]),
     inr (PodExec env (pod_namespace p) (pod_name p) ContainerDatabase command)).

Definition no_pod : Pod := mkPod EmptyString EmptyString.

(** [cmdShowBackup.RunE] with the flag values [output] and [repoName]. *)
Definition showBackupRunE (env : ShowEnv) (output repoName : string)
  (args : list string) : M unit :=
  let repoNum := TrimPrefix repoName "repo" in
  check (ToRESTConfig env) ;;;
  check (NewForConfig env) ;;;
  configNamespace <- lift (ConfigNamespace env) ;;
  pods <- lift (ListPods env configNamespace
                  (PrimaryInstanceLabels (nth 0 args EmptyString))) ;;
  if negb (Nat.eqb (List.length pods) 1) then
    fail (GoError "Primary instance Pod not found.")
  else
    check (NewPodExecutor env) ;;;
    let exec := pod_executor env (hd no_pod pods) in
    r <- pgBackRestInfo exec output repoNum ;;
    let '(stdout, stderr, err) := r in
    match err with
    | Some e => fail e
    | None =>
        print (GoFmt.Sprintf0 stdout) ;;;
        if negb (String.eqb stderr "") then
          (* cmd.Printf("\nError returned: %s\n", stderr) *)
          print (nl ++ "Error returned: " ++ stderr ++ nl)
        else ret tt
    end.

Definition run_show_backup (env : ShowEnv) (output repoName : string)
  (args : list string) : Obs * (goerror + unit) :=
  showBackupRunE env output repoName args obs0.

(** ** The [create postgrescluster] command (create.go) *)

(** A YAML scalar after type resolution, as it ends up in the unstructured
    object ([nil], [bool], [int64] or [string]). *)
Inductive yvalue : Type :=
| YNull
| YBool (b : bool)
| YInt (z : Z)
| YStr (s : string).

(** The part of an unstructured [PostgresCluster] object the commands and
    the claims look at. *)
Record Object := mkObject {
  obj_apiVersion : string;
  obj_kind : string;
  obj_metadata_name : yvalue;
  obj_postgresVersion : Z;
  obj_instance_storage : list string;
  obj_repo_names : list string;
}.

(** [u.GetName()]: [metadata.name] when it is a string, [""] otherwise
    ([NestedString] fails on any other type). *)
Definition GetName (u : Object) : string :=
  match obj_metadata_name u with
  | YStr s => s
  | _ => EmptyString
  end.

Definition dq : string := String (ascii_of_nat 34) EmptyString.

(** The template text of [generateUnstructuredClusterYaml] before and after
    the [%s]. *)
Definition template_head : string :=
  nl ++ "apiVersion: postgres-operator.crunchydata.com/v1beta1"
  ++ nl ++ "kind: PostgresCluster"
  ++ nl ++ "metadata:"
  ++ nl ++ "  name: ".

Definition template_tail : string :=
  nl ++ "spec:"
  ++ nl ++ "  postgresVersion: 14"
  ++ nl ++ "  instances:"
  ++ nl ++ "  - dataVolumeClaimSpec:"
  ++ nl ++ "      accessModes:"
  ++ nl ++ "      - " ++ dq ++ "ReadWriteOnce" ++ dq
  ++ nl ++ "      resources:"
  ++ nl ++ "        requests:"
  ++ nl ++ "          storage: 1Gi"
  ++ nl ++ "  backups:"
  ++ nl ++ "    pgbackrest:"
  ++ nl ++ "      repos:"
  ++ nl ++ "      - name: repo1"
  ++ nl ++ "        volume:"
  ++ nl ++ "          volumeClaimSpec:"
  ++ nl ++ "            accessModes:"
  ++ nl ++ "            - " ++ dq ++ "ReadWriteOnce" ++ dq
  ++ nl ++ "            resources:"
  ++ nl ++ "              requests:"
  ++ nl ++ "                storage: 1Gi"
  ++ nl.

(** [fmt.Sprintf(template, name)]: [%s] of a string inserts it as it is. *)
Definition cluster_template (name : string) : string :=
  template_head ++ name ++ template_tail.

(** [yaml.Unmarshal(data, &cluster)] of [k8s.io/apimachinery/pkg/util/yaml]
    is external; [generateUnstructuredClusterYaml] is given it as a
    function. *)
Definition generateUnstructuredClusterYaml
  (Unmarshal : string -> goerror + Object) (name : string)
  : goerror + Object :=
  match Unmarshal (cluster_template name) with
  | inl e => inl e
  | inr cluster => inr cluster
  end.

(** The calls of [RunE] outside this repository; [Create] is the dynamic
    client's [Create] on [postgresclusters] in a namespace, answering the
    object the API server returns. *)
Record CreateEnv := mkCreateEnv {
  c_ConfigNamespace : goerror + string;
  c_ToRESTConfig : option goerror;
  c_NewForConfig : option goerror;
  c_YamlUnmarshal : string -> goerror + Object;
  c_Create : string -> Object -> goerror + Object;
}.

(** [newCreateClusterCommand]'s [RunE]. *)
Definition createClusterRunE (env : CreateEnv) (args : list string) : M unit :=
  let clusterName := nth 0 args EmptyString in
  namespace <- lift (c_ConfigNamespace env) ;;
  check (c_ToRESTConfig env) ;;;
  check (c_NewForConfig env) ;;;
  cluster <- lift (generateUnstructuredClusterYaml (c_YamlUnmarshal env)
                     clusterName) ;;
  u <- lift (c_Create env namespace cluster) ;;
  (* cmd.Printf("postgresclusters/%s created\n", u.GetName()) *)
  print ("postgresclusters/" ++ GetName u ++ " created" ++ nl).

Definition run_create (env : CreateEnv) (args : list string)
  : Obs * (goerror + unit) :=
  createClusterRunE env args obs0.

(** ** Part of the YAML library, for the documents of the template

    [yaml.Unmarshal] into an [unstructured.Unstructured] goes through
    [sigs.k8s.io/yaml] (YAML to JSON with [gopkg.in/yaml.v2], then JSON into
    the object).  Only the documents rendered from the template with a
    DNS-1123 label as name are covered: there the document structure is the
    template's, and [metadata.name] is the plain scalar [name], typed by
    yaml.v2's [resolve]: a value of [resolveMap] ([y], [yes], [true], [on],
    [n], [no], [false], [off], [null], ...) for a first byte with a map hint,
    an [int] for a decimal numeral when the first byte is a digit, a string
    when the first byte has no hint.  The remaining digit-led scalars
    (timestamps, [0x]/[0o]/[0b] and leading-zero integers, floats) are not
    covered; there, and on every other document, the model answers the error
    [unmodelled], which no result below relies on. *)
Module GoYaml.

Definition unmodelled : goerror := GoError "unmodelled document".

Definition is_lower (c : ascii) : bool :=
  (97 <=? nat_of_ascii c)%nat && (nat_of_ascii c <=? 122)%nat.

Fixpoint all_chars (f : ascii -> bool) (s : string) : bool :=
  match s with
  | EmptyString => true
  | String c r => f c && all_chars f r
  end.

Definition last_char (s : string) : option ascii :=
  match String.length s with
  | O => None
  | S k => String.get k s
  end.

(** A DNS-1123 label: 1 to 63 bytes of [a-z0-9-], starting and ending with
    a letter or digit. *)
Definition dns_label (n : string) : bool :=
  let alnum c := is_lower c || GoFmt.is_digit c in
  (1 <=? String.length n)%nat && (String.length n <=? 63)%nat
  && all_chars (fun c => alnum c || Ascii.eqb c "-") n
  && match String.get 0 n, last_char n with
     | Some a, Some b => alnum a && alnum b
     | _, _ => false
     end.

Fixpoint decimal_value (s : string) (acc : Z) : Z :=
  match s with
  | EmptyString => acc
  | String c r => decimal_value r (acc * 10 + GoFmt.digit_value c)%Z
  end.

(** yaml.v2 [resolve] of a plain scalar that is a DNS-1123 label ([None]
    where the model stops). *)
Definition resolve_plain (n : string) : option yvalue :=
  if existsb (String.eqb n) ["y"; "yes"; "true"; "on"] then Some (YBool true)
  else if existsb (String.eqb n) ["n"; "no"; "false"; "off"] then
    Some (YBool false)
  else if String.eqb n "null" then Some YNull
  else match n with
       | EmptyString => Some YNull
       | String c r =>
           if GoFmt.is_digit c then
             if all_chars GoFmt.is_digit n
                && (String.eqb n "0" || negb (Ascii.eqb c "0"))
                && (decimal_value n 0 <? 2 ^ 63)%Z
             then Some (YInt (decimal_value n 0))
             else None
           else Some (YStr n)
       end.

(** The name in a document rendered from the template. *)
Definition extract_name (doc : string) : option string :=
  if String.prefix template_head doc then
    let r := substring (String.length template_head) (String.length doc) doc in
    let lt := String.length template_tail in
    let k := (String.length r - lt)%nat in
    if (lt <=? String.length r)%nat
       && String.eqb (substring k lt r) template_tail
    then Some (substring 0 k r)
    else None
  else None.

(** The object the template parses to, given the type of its name. *)
Definition cluster_object (name : yvalue) : Object :=
  mkObject "postgres-operator.crunchydata.com/v1beta1" "PostgresCluster"
    name 14 ["1Gi"] ["repo1"].

Definition Unmarshal (doc : string) : goerror + Object :=
  match extract_name doc with
  | Some n =>
      if dns_label n then
        match resolve_plain n with
        | Some v => inr (cluster_object v)
        | None => inl unmodelled
        end
      else inl unmodelled
  | None => inl unmodelled
  end.

End GoYaml.

(** ** Helpers for the statements *)

(** Substring occurrence ([strings.Contains]). *)
Fixpoint contains (needle hay : string) : bool :=
  String.prefix needle hay
  || match hay with
     | EmptyString => false
     | String _ r => contains needle r
     end.

(** The command string [pgBackRestInfo] builds. *)
Definition info_command (output repoNum : string) : string :=
  if negb (String.eqb repoNum "") then
    ("pgbackrest info --output=" ++ output) ++ " --repo=" ++ repoNum
  else "pgbackrest info --output=" ++ output.

Definition info_argv (output repoNum : string) : list string :=
  ["bash"; "-ceu"; "--"; info_command output repoNum].

(** What [RunE] prints after a successful exec. *)
Definition show_output (stdout stderr : string) : string :=
  GoFmt.Sprintf0 stdout
  ++ (if negb (String.eqb stderr "") then nl ++ "Error returned: " ++ stderr ++ nl
      else EmptyString).

(** Modelled from the spec: the executor built by [util.NewPodExecutor]
    (internal/util, not in this excerpt), section 4.3 of the spec.  The
    remote run either completes with some exit status, which is surfaced as
    data and not as an error, or fails in the transport, which is the
    returned error. *)
Inductive RemoteRun : Type :=
| RemoteExited (stdout stderr : string) (exit_code : Z)
| TransportFailed (stdout stderr : string) (e : goerror).

Definition spec_PodExec
  (remote : string -> string -> string -> list string -> RemoteRun)
  (namespace pod container : string) (command : list string) : ExecResult :=
  match remote namespace pod container command with
  | RemoteExited o e _ => mkExecResult o e None
  | TransportFailed o e err => mkExecResult o e (Some err)
  end.

(** ** Concrete environments *)

Definition hippo_pod : Pod := mkPod "postgres-operator" "hippo-instance1-abcd-0".

(** A cluster whose label lookup answers [pods] and whose pod exec answers
    [res], every other call succeeding. *)
Definition mock_show_env (pods : list Pod) (res : ExecResult) : ShowEnv :=
  mkShowEnv None None (inr "postgres-operator") (fun _ _ => inr pods) None
    (fun _ _ _ _ => res).

(** An API server that answers the submitted object. *)
Definition echo_create_env : CreateEnv :=
  mkCreateEnv (inr "postgres-operator") None None GoYaml.Unmarshal
    (fun _ obj => inr obj).

(** ** Lemmas *)

Lemma str_app_assoc (a b c : string) : (a ++ b) ++ c = a ++ b ++ c.
Proof. induction a as [|x a IH]; simpl; [reflexivity | now rewrite IH]. Qed.

Lemma str_app_nil_r (a : string) : a ++ EmptyString = a.
Proof. induction a as [|x a IH]; simpl; [reflexivity | now rewrite IH]. Qed.

Lemma prefix_app (p s : string) : String.prefix p (p ++ s) = true.
Proof.
  induction p as [|x p IH]; [now destruct s|simpl].
  destruct (ascii_dec x x) as [_|n]; [exact IH | now contradiction n].
Qed.

Lemma prefix_true (p h : string) :
  String.prefix p h = true -> exists post, h = p ++ post.
Proof.
  revert h; induction p as [|x p IH]; intros h H; simpl in *.
  - now exists h.
  - destruct h as [|y h]; [discriminate|]. simpl in H.
    destruct (ascii_dec x y) as [->|]; [|discriminate].
    destruct (IH h H) as [post ->]. now exists post.
Qed.

Lemma contains_cons (n h : string) (c : ascii) :
  contains n (String c h) = String.prefix n (String c h) || contains n h.
Proof. reflexivity. Qed.

Lemma contains_correct (n h : string) :
  contains n h = true <-> exists pre post, h = pre ++ n ++ post.
Proof.
  split.
  - induction h as [|c h IH]; intros H.
    + destruct n as [|a n]; simpl in H;
        [now exists EmptyString, EmptyString | discriminate].
    + rewrite contains_cons in H. apply orb_true_iff in H as [H|H].
      * destruct (prefix_true _ _ H) as [post Hp].
        now exists EmptyString, post.
      * destruct (IH H) as (pre & post & ->).
        now exists (String c pre), post.
  - intros (pre & post & ->).
    induction pre as [|c pre IH].
    + destruct n as [|a n]; [now destruct post |].
      change (contains (String a n) (String a (n ++ post)) = true).
      rewrite contains_cons. apply orb_true_iff. left.
      exact (prefix_app (String a n) post).
    + change (contains n (String c (pre ++ n ++ post)) = true).
      rewrite contains_cons, IH. apply orb_true_r.
Qed.

Lemma substring_long (s : string) (m : nat) :
  (String.length s <= m)%nat -> substring 0 m s = s.
Proof.
  revert m; induction s as [|c s IH]; intros m Hm; destruct m; simpl in *;
    try reflexivity; try lia.
  rewrite IH; [reflexivity | lia].
Qed.

Lemma TrimPrefix_repo (suffix : string) :
  TrimPrefix ("repo" ++ suffix) "repo" = suffix.
Proof.
  unfold TrimPrefix. simpl.
  replace (String.prefix "" suffix) with true by (now destruct suffix).
  apply substring_long. lia.
Qed.

Lemma TrimPrefix_not_prefix (s : string) :
  String.prefix "repo" s = false -> TrimPrefix s "repo" = s.
Proof. unfold TrimPrefix. now intros ->. Qed.

(** The path of [show backup] once the lookup has found exactly one pod. *)
Lemma showBackup_one_pod env output repoName name ns p :
  ToRESTConfig env = None -> NewForConfig env = None ->
  ConfigNamespace env = inr ns ->
  ListPods env ns (PrimaryInstanceLabels name) = inr [p] ->
  NewPodExecutor env = None ->
  let argv := info_argv output (TrimPrefix repoName "repo") in
  let res := PodExec env (pod_namespace p) (pod_name p) ContainerDatabase argv in
  run_show_backup env output repoName [name] =
    (mkObs (match res_err res with
            | Some _ => EmptyString
            | None => show_output (res_stdout res) (res_stderr res)
            end)
           [(pod_namespace p, pod_name p, ContainerDatabase, argv)],
     match res_err res with Some e => inl e | None => inr tt end).
Proof.
  intros H1 H2 H3 H4 H5 argv res.
  unfold run_show_backup, showBackupRunE, bind, check, lift.
  rewrite H1, H2, H3. cbn [nth ret]. rewrite H4, H5. cbn.
  unfold argv, res, info_argv, info_command.
  destruct (PodExec env _ _ _ _) as [o e [err|]]; cbn; [reflexivity|].
  unfold show_output.
  destruct (String.eqb e ""); cbn; [now rewrite str_app_nil_r | reflexivity].
Qed.

(** ** Claims about [show backup] *)

(** C1: when the primary-instance label lookup answers a number of pods other
    than one (none, or two and more), [show backup] fails with the error
    "Primary instance Pod not found." (the code's message ends in a period),
    prints nothing and never calls the pod exec transport; the outcome does
    not depend on which count it was. *)
Theorem show_backup_lookup_not_one env output repoName name ns pods :
  ToRESTConfig env = None -> NewForConfig env = None ->
  ConfigNamespace env = inr ns ->
  ListPods env ns (PrimaryInstanceLabels name) = inr pods ->
  List.length pods <> 1%nat ->
  run_show_backup env output repoName [name]
  = (mkObs EmptyString [], inl (GoError "Primary instance Pod not found.")).
Proof.
  intros H1 H2 H3 H4 Hn.
  unfold run_show_backup, showBackupRunE, bind, check, lift.
  rewrite H1, H2, H3. cbn [nth ret]. rewrite H4. cbn [ret].
  apply Nat.eqb_neq in Hn. rewrite Hn. reflexivity.
Qed.

Lemma show_backup_lookup_not_one_witness :
  run_show_backup (mock_show_env [] (mkExecResult "text info" "" None))
    "text" "" ["hippo"]
  = (mkObs EmptyString [], inl (GoError "Primary instance Pod not found."))
  /\ run_show_backup
       (mock_show_env [hippo_pod; hippo_pod] (mkExecResult "text info" "" None))
       "text" "" ["hippo"]
  = (mkObs EmptyString [], inl (GoError "Primary instance Pod not found.")).
Proof.
  split.
  - apply (show_backup_lookup_not_one _ "text" "" "hippo" "postgres-operator" []);
      [reflexivity | reflexivity | reflexivity | reflexivity | simpl; lia].
  - apply (show_backup_lookup_not_one _ "text" "" "hippo" "postgres-operator"
             [hippo_pod; hippo_pod]);
      [reflexivity | reflexivity | reflexivity | reflexivity | simpl; lia].
Defined.

(** C5: after an exec that returns no error, [show backup] succeeds and
    prints the formatted stdout followed, when stderr is not empty, by a
    newline and the line "Error returned: <stderr>"; with an empty stderr
    nothing follows the stdout. *)
Theorem show_backup_stderr_line env output repoName name ns p out err :
  ToRESTConfig env = None -> NewForConfig env = None ->
  ConfigNamespace env = inr ns ->
  ListPods env ns (PrimaryInstanceLabels name) = inr [p] ->
  NewPodExecutor env = None ->
  PodExec env (pod_namespace p) (pod_name p) ContainerDatabase
    (info_argv output (TrimPrefix repoName "repo")) = mkExecResult out err None ->
  snd (run_show_backup env output repoName [name]) = inr tt
  /\ printed (fst (run_show_backup env output repoName [name]))
     = GoFmt.Sprintf0 out
       ++ (if String.eqb err "" then EmptyString
           else nl ++ "Error returned: " ++ err ++ nl).
Proof.
  intros H1 H2 H3 H4 H5 Hx.
  rewrite (showBackup_one_pod env output repoName name ns p H1 H2 H3 H4 H5).
  cbv zeta. rewrite Hx. cbn. unfold show_output.
  destruct (String.eqb err ""); split; reflexivity.
Qed.

Lemma show_backup_stderr_line_witness :
  snd (run_show_backup
         (mock_show_env [hippo_pod] (mkExecResult "text info" "WARN: stanza" None))
         "text" "" ["hippo"]) = inr tt
  /\ printed (fst (run_show_backup
         (mock_show_env [hippo_pod] (mkExecResult "text info" "WARN: stanza" None))
         "text" "" ["hippo"]))
     = "text info" ++ nl ++ "Error returned: WARN: stanza" ++ nl.
Proof.
  destruct (show_backup_stderr_line
              (mock_show_env [hippo_pod] (mkExecResult "text info" "WARN: stanza" None))
              "text" "" "hippo" "postgres-operator" hippo_pod "text info" "WARN: stanza")
    as [Hs Hp]; try reflexivity.
  split; [exact Hs | rewrite Hp; vm_compute; reflexivity].
Defined.

(** C10: when the exec call returns an error, [show backup] returns that
    error and prints nothing, whatever the captured stdout and stderr. *)
Theorem show_backup_exec_error env output repoName name ns p out err e :
  ToRESTConfig env = None -> NewForConfig env = None ->
  ConfigNamespace env = inr ns ->
  ListPods env ns (PrimaryInstanceLabels name) = inr [p] ->
  NewPodExecutor env = None ->
  PodExec env (pod_namespace p) (pod_name p) ContainerDatabase
    (info_argv output (TrimPrefix repoName "repo")) = mkExecResult out err (Some e) ->
  snd (run_show_backup env output repoName [name]) = inl e
  /\ printed (fst (run_show_backup env output repoName [name])) = EmptyString.
Proof.
  intros H1 H2 H3 H4 H5 Hx.
  rewrite (showBackup_one_pod env output repoName name ns p H1 H2 H3 H4 H5).
  cbv zeta. rewrite Hx. split; reflexivity.
Qed.

Lemma show_backup_exec_error_witness :
  snd (run_show_backup
         (mock_show_env [hippo_pod]
            (mkExecResult "partial" "stream reset" (Some (GoError "error dialing backend"))))
         "json" "repo1" ["hippo"]) = inl (GoError "error dialing backend")
  /\ printed (fst (run_show_backup
         (mock_show_env [hippo_pod]
            (mkExecResult "partial" "stream reset" (Some (GoError "error dialing backend"))))
         "json" "repo1" ["hippo"])) = EmptyString.
Proof.
  apply (show_backup_exec_error _ "json" "repo1" "hippo" "postgres-operator" hippo_pod
           "partial" "stream reset"); reflexivity.
Defined.

(** C3 (code_bug): the captured stdout is printed through [cmd.Printf] as a
    format string.  A stdout of "text info" is printed exactly, but a stdout
    ending in ['%'] is not printed verbatim: Go's formatter writes
    "%!(NOVERB)" in place of the lone ['%']. *)
Theorem show_backup_stdout_as_format :
  printed (fst (run_show_backup (mock_show_env [hippo_pod] (mkExecResult "text info" "" None))
                  "text" "" ["hippo"])) = "text info"
  /\ printed (fst (run_show_backup (mock_show_env [hippo_pod] (mkExecResult "100%" "" None))
                     "text" "" ["hippo"])) = "100%!(NOVERB)".
Proof. split; vm_compute; reflexivity. Qed.

(** ** Claims about the command string *)

(** C6: [pgBackRestInfo] calls its executor once, on the shell wrapper
    [bash -ceu -- <command>] where the command is
    "pgbackrest info --output=" ++ output, followed by " --repo=" ++ repoNum
    exactly when repoNum is not empty, and answers what the executor wrote
    and returned; with output "json" the command contains "--output=json". *)
Theorem pgBackRestInfo_command :
  (forall (exec : Executor) output repoNum st,
     pgBackRestInfo exec output repoNum st
     = match exec ["bash"; "-ceu"; "--";
                   if String.eqb repoNum "" then "pgbackrest info --output=" ++ output
                   else ("pgbackrest info --output=" ++ output) ++ " --repo=" ++ repoNum]
                  st with
       | (st', inl e) => (st', inl e)
       | (st', inr r) => (st', inr (res_stdout r, res_stderr r, res_err r))
       end)
  /\ (forall repoNum,
        exists pre post,
          (if String.eqb repoNum "" then "pgbackrest info --output=" ++ "json"
           else ("pgbackrest info --output=" ++ "json") ++ " --repo=" ++ repoNum)
          = pre ++ "--output=json" ++ post).
Proof.
  split.
  - intros exec output repoNum st. unfold pgBackRestInfo, bind, ret.
    destruct (String.eqb repoNum ""); reflexivity.
  - intros repoNum. exists "pgbackrest info ".
    destruct (String.eqb repoNum "").
    + exists EmptyString. reflexivity.
    + exists (" --repo=" ++ repoNum). reflexivity.
Qed.

(** The command vector [show backup] hands to the transport, once the lookup
    has found one pod. *)
Lemma showBackup_exec_log env output repoName name ns p :
  ToRESTConfig env = None -> NewForConfig env = None ->
  ConfigNamespace env = inr ns ->
  ListPods env ns (PrimaryInstanceLabels name) = inr [p] ->
  NewPodExecutor env = None ->
  exec_log (fst (run_show_backup env output repoName [name]))
  = [(pod_namespace p, pod_name p, ContainerDatabase,
      ["bash"; "-ceu"; "--"; info_command output (TrimPrefix repoName "repo")])].
Proof.
  intros H1 H2 H3 H4 H5.
  rewrite (showBackup_one_pod env output repoName name ns p H1 H2 H3 H4 H5).
  reflexivity.
Qed.

(** C4 (amended): for a --repoName value "repo" ++ suffix with a non-empty
    suffix, the command handed to the executor is
    "pgbackrest info --output=<output> --repo=<suffix>", so it contains
    "--repo=" ++ suffix; the suffix is not checked, whatever it is. For
    --repoName=repo itself no --repo flag is added: the command is
    "pgbackrest info --output=<output>". *)
Theorem show_backup_repo_suffix env output suffix name ns p :
  ToRESTConfig env = None -> NewForConfig env = None ->
  ConfigNamespace env = inr ns ->
  ListPods env ns (PrimaryInstanceLabels name) = inr [p] ->
  NewPodExecutor env = None ->
  (suffix <> EmptyString ->
   exists cmd,
     exec_log (fst (run_show_backup env output ("repo" ++ suffix) [name]))
     = [(pod_namespace p, pod_name p, ContainerDatabase, ["bash"; "-ceu"; "--"; cmd])]
     /\ cmd = ("pgbackrest info --output=" ++ output) ++ " --repo=" ++ suffix
     /\ exists pre post, cmd = pre ++ "--repo=" ++ suffix ++ post)
  /\ exec_log (fst (run_show_backup env output "repo" [name]))
     = [(pod_namespace p, pod_name p, ContainerDatabase,
         ["bash"; "-ceu"; "--"; "pgbackrest info --output=" ++ output])].
Proof.
  intros H1 H2 H3 H4 H5. split.
  - intros Hs.
    rewrite (showBackup_exec_log env output ("repo" ++ suffix) name ns p H1 H2 H3 H4 H5).
    rewrite TrimPrefix_repo. unfold info_command.
    apply String.eqb_neq in Hs. rewrite Hs. cbn [negb].
    eexists. split; [reflexivity|]. split; [reflexivity|].
    exists ("pgbackrest info --output=" ++ output ++ " "), EmptyString.
    rewrite str_app_nil_r, !str_app_assoc. reflexivity.
  - rewrite (showBackup_exec_log env output "repo" name ns p H1 H2 H3 H4 H5).
    reflexivity.
Qed.

Lemma show_backup_repo_suffix_witness :
  (exists cmd,
    exec_log (fst (run_show_backup (mock_show_env [hippo_pod] (mkExecResult "" "" None))
                     "text" ("repo" ++ "2") ["hippo"]))
    = [(pod_namespace hippo_pod, pod_name hippo_pod, ContainerDatabase,
        ["bash"; "-ceu"; "--"; cmd])]
    /\ cmd = ("pgbackrest info --output=" ++ "text") ++ " --repo=" ++ "2"
    /\ exists pre post, cmd = pre ++ "--repo=" ++ "2" ++ post)
  /\ exec_log (fst (run_show_backup (mock_show_env [hippo_pod] (mkExecResult "" "" None))
                      "text" "repo" ["hippo"]))
     = [(pod_namespace hippo_pod, pod_name hippo_pod, ContainerDatabase,
         ["bash"; "-ceu"; "--"; "pgbackrest info --output=" ++ "text"])].
Proof.
  destruct (show_backup_repo_suffix (mock_show_env [hippo_pod] (mkExecResult "" "" None))
              "text" "2" "hippo" "postgres-operator" hippo_pod) as [Ha Hb];
    try reflexivity.
  split; [apply Ha; discriminate | exact Hb].
Defined.

(** C4 as stated fails: --repoName=repo has the form "repo" ++ "" but the
    command handed to the executor is "pgbackrest info --output=text", which
    does not contain "--repo=" ++ "". *)
Lemma show_backup_repo_empty_suffix :
  exec_log (fst (run_show_backup (mock_show_env [hippo_pod] (mkExecResult "" "" None))
                   "text" ("repo" ++ "") ["hippo"]))
  = [(pod_namespace hippo_pod, pod_name hippo_pod, ContainerDatabase,
      ["bash"; "-ceu"; "--"; "pgbackrest info --output=text"])]
  /\ ~ exists pre post, "pgbackrest info --output=text" = pre ++ "--repo=" ++ "" ++ post.
Proof.
  split; [vm_compute; reflexivity|].
  intros H. apply contains_correct in H. vm_compute in H. discriminate.
Qed.

(** C9: --repoName empty or exactly "repo" gives no "--repo=" flag (the
    command is "pgbackrest info --output=<output>"); a non-empty value that
    does not start with "repo" is passed whole as the "--repo=" argument. *)
Theorem show_backup_repo_name_cases env output repoName name ns p :
  ToRESTConfig env = None -> NewForConfig env = None ->
  ConfigNamespace env = inr ns ->
  ListPods env ns (PrimaryInstanceLabels name) = inr [p] ->
  NewPodExecutor env = None ->
  ((repoName = EmptyString \/ repoName = "repo") ->
   exec_log (fst (run_show_backup env output repoName [name]))
   = [(pod_namespace p, pod_name p, ContainerDatabase,
       ["bash"; "-ceu"; "--"; "pgbackrest info --output=" ++ output])])
  /\ ((repoName <> EmptyString /\ String.prefix "repo" repoName = false) ->
      exec_log (fst (run_show_backup env output repoName [name]))
      = [(pod_namespace p, pod_name p, ContainerDatabase,
          ["bash"; "-ceu"; "--";
           ("pgbackrest info --output=" ++ output) ++ " --repo=" ++ repoName])]).
Proof.
  intros H1 H2 H3 H4 H5.
  rewrite (showBackup_exec_log env output repoName name ns p H1 H2 H3 H4 H5).
  split.
  - intros [-> | ->]; reflexivity.
  - intros [Hne Hp]. rewrite (TrimPrefix_not_prefix _ Hp). unfold info_command.
    apply String.eqb_neq in Hne. rewrite Hne. reflexivity.
Qed.

Lemma show_backup_repo_name_cases_witness :
  exec_log (fst (run_show_backup (mock_show_env [hippo_pod] (mkExecResult "" "" None))
                   "json" "repo" ["hippo"]))
  = [(pod_namespace hippo_pod, pod_name hippo_pod, ContainerDatabase,
      ["bash"; "-ceu"; "--"; "pgbackrest info --output=" ++ "json"])]
  /\ exec_log (fst (run_show_backup (mock_show_env [hippo_pod] (mkExecResult "" "" None))
                      "json" "2" ["hippo"]))
  = [(pod_namespace hippo_pod, pod_name hippo_pod, ContainerDatabase,
      ["bash"; "-ceu"; "--"; ("pgbackrest info --output=" ++ "json") ++ " --repo=" ++ "2"])].
Proof.
  destruct (show_backup_repo_name_cases
              (mock_show_env [hippo_pod] (mkExecResult "" "" None)) "json" "repo" "hippo"
              "postgres-operator" hippo_pod) as [Ha _]; try reflexivity.
  destruct (show_backup_repo_name_cases
              (mock_show_env [hippo_pod] (mkExecResult "" "" None)) "json" "2" "hippo"
              "postgres-operator" hippo_pod) as [_ Hb]; try reflexivity.
  split; [apply Ha; right; reflexivity | apply Hb; split; [discriminate | reflexivity]].
Defined.

(** ** Failure causes of [show backup] *)

(** C2 as stated fails: an error loading the Kubernetes configuration makes
    [show backup] return an error (a non-zero exit), although the pod lookup
    would find the primary and the exec transport would not fail. *)
Lemma show_backup_config_error_fails :
  let env := mkShowEnv (Some (GoError "invalid configuration")) None
               (inr "postgres-operator") (fun _ _ => inr [hippo_pod]) None
               (spec_PodExec (fun _ _ _ _ => RemoteExited "text info" "" 0%Z)) in
  snd (run_show_backup env "text" "" ["hippo"]) = inl (GoError "invalid configuration")
  /\ ListPods env "postgres-operator" (PrimaryInstanceLabels "hippo") = inr [hippo_pod]
  /\ res_err (PodExec env (pod_namespace hippo_pod) (pod_name hippo_pod)
                ContainerDatabase (info_argv "text" "")) = None.
Proof. vm_compute. repeat split. Qed.

(** C2 (amended): with the executor of the spec, a remote command that
    exits with any status, zero or not, leaves [show backup] successful with
    the captured output printed; and [show backup] fails only when loading
    the REST configuration, building the client, resolving the namespace or
    listing the pods fails, when the lookup does not find exactly one pod,
    when building the pod executor fails, or when the exec transport
    fails. *)
Theorem show_backup_failure_causes env remote output repoName name :
  PodExec env = spec_PodExec remote ->
  (forall ns p out err code,
     ToRESTConfig env = None -> NewForConfig env = None ->
     ConfigNamespace env = inr ns ->
     ListPods env ns (PrimaryInstanceLabels name) = inr [p] ->
     NewPodExecutor env = None ->
     remote (pod_namespace p) (pod_name p) ContainerDatabase
       (info_argv output (TrimPrefix repoName "repo")) = RemoteExited out err code ->
     run_show_backup env output repoName [name]
     = (mkObs (show_output out err)
          [(pod_namespace p, pod_name p, ContainerDatabase,
            info_argv output (TrimPrefix repoName "repo"))], inr tt))
  /\
  (forall obs e,
     run_show_backup env output repoName [name] = (obs, inl e) ->
     ToRESTConfig env = Some e
     \/ NewForConfig env = Some e
     \/ ConfigNamespace env = inl e
     \/ (exists ns, ConfigNamespace env = inr ns
                    /\ ListPods env ns (PrimaryInstanceLabels name) = inl e)
     \/ (exists ns pods, ConfigNamespace env = inr ns
                         /\ ListPods env ns (PrimaryInstanceLabels name) = inr pods
                         /\ List.length pods <> 1%nat
                         /\ e = GoError "Primary instance Pod not found.")
     \/ NewPodExecutor env = Some e
     \/ (exists ns p out err, ConfigNamespace env = inr ns
                             /\ ListPods env ns (PrimaryInstanceLabels name) = inr [p]
                             /\ remote (pod_namespace p) (pod_name p) ContainerDatabase
                                  (info_argv output (TrimPrefix repoName "repo"))
                                = TransportFailed out err e)).
Proof.
  intros HP. split.
  - intros ns p out err code H1 H2 H3 H4 H5 Hr.
    rewrite (showBackup_one_pod env output repoName name ns p H1 H2 H3 H4 H5).
    cbv zeta. rewrite HP. unfold spec_PodExec. rewrite Hr. reflexivity.
  - intros obs e Hrun.
    destruct (ToRESTConfig env) as [e1|] eqn:H1.
    { unfold run_show_backup, showBackupRunE, bind, check in Hrun. rewrite H1 in Hrun.
      cbn in Hrun. injection Hrun as _ <-. now left. }
    destruct (NewForConfig env) as [e2|] eqn:H2.
    { unfold run_show_backup, showBackupRunE, bind, check in Hrun.
      rewrite H1, H2 in Hrun. cbn in Hrun. injection Hrun as _ <-. now right; left. }
    destruct (ConfigNamespace env) as [e3|ns] eqn:H3.
    { unfold run_show_backup, showBackupRunE, bind, check, lift in Hrun.
      rewrite H1, H2, H3 in Hrun. cbn in Hrun. injection Hrun as _ <-.
      now right; right; left. }
    destruct (ListPods env ns (PrimaryInstanceLabels name)) as [e4|pods] eqn:H4.
    { unfold run_show_backup, showBackupRunE, bind, check, lift in Hrun.
      rewrite H1, H2, H3 in Hrun. cbn [nth ret] in Hrun. rewrite H4 in Hrun.
      cbn in Hrun. injection Hrun as _ <-.
      right; right; right; left. now exists ns. }
    destruct (Nat.eqb (List.length pods) 1) eqn:Hn.
    2:{ apply Nat.eqb_neq in Hn.
        rewrite (show_backup_lookup_not_one env output repoName name ns pods
                   H1 H2 H3 H4 Hn) in Hrun.
        injection Hrun as _ <-.
        right; right; right; right; left. now exists ns, pods. }
    destruct pods as [|p [|q pods]]; try discriminate Hn.
    destruct (NewPodExecutor env) as [e5|] eqn:H5.
    { unfold run_show_backup, showBackupRunE, bind, check, lift in Hrun.
      rewrite H1, H2, H3 in Hrun. cbn [nth ret] in Hrun. rewrite H4 in Hrun.
      cbn [ret] in Hrun. rewrite H5 in Hrun. cbn in Hrun. injection Hrun as _ <-.
      do 5 right. now left. }
    rewrite (showBackup_one_pod env output repoName name ns p H1 H2 H3 H4 H5) in Hrun.
    cbv zeta in Hrun. rewrite HP in Hrun. unfold spec_PodExec in Hrun.
    destruct (remote _ _ _ _) as [o r c|o r x] eqn:Hr; cbn in Hrun;
      [discriminate Hrun|].
    injection Hrun as _ <-. do 6 right. now exists ns, p, o, r.
Qed.

Lemma show_backup_failure_causes_witness :
  run_show_backup
    (mkShowEnv None None (inr "postgres-operator") (fun _ _ => inr [hippo_pod]) None
       (spec_PodExec (fun _ _ _ _ => RemoteExited "text info" "stanza missing" 2%Z)))
    "text" "" ["hippo"]
  = (mkObs (show_output "text info" "stanza missing")
       [(pod_namespace hippo_pod, pod_name hippo_pod, ContainerDatabase,
         info_argv "text" (TrimPrefix "" "repo"))], inr tt).
Proof.
  destruct (show_backup_failure_causes
              (mkShowEnv None None (inr "postgres-operator") (fun _ _ => inr [hippo_pod]) None
                 (spec_PodExec (fun _ _ _ _ => RemoteExited "text info" "stanza missing" 2%Z)))
              (fun _ _ _ _ => RemoteExited "text info" "stanza missing" 2%Z)
              "text" "" "hippo" eq_refl) as [Hok _].
  apply (Hok "postgres-operator" hippo_pod "text info" "stanza missing" 2%Z);
    reflexivity.
Defined.

(** ** Claims about [create postgrescluster] *)

(** C7 (code_bug): the name is written into the YAML template unquoted, so
    YAML types it.  "123" is a valid DNS-1123 label, yet the generated object
    has the integer 123 as [metadata.name], and [GetName] answers [""]; a name
    such as "hippo" stays a string. *)
Theorem generate_numeric_name :
  GoYaml.dns_label "123" = true
  /\ generateUnstructuredClusterYaml GoYaml.Unmarshal "123"
     = inr (GoYaml.cluster_object (YInt 123))
  /\ GetName (GoYaml.cluster_object (YInt 123)) = EmptyString
  /\ generateUnstructuredClusterYaml GoYaml.Unmarshal "hippo"
     = inr (GoYaml.cluster_object (YStr "hippo")).
Proof. vm_compute. repeat split. Qed.

(** C8: a successful [create postgrescluster <name>] has generated the
    object, had it created by the API server in the resolved namespace, and
    printed "postgresclusters/" ++ (the name in the server's answer) ++
    " created" and a newline. *)
Theorem create_prints_server_name env name obs :
  run_create env [name] = (obs, inr tt) ->
  exists ns cluster u,
    c_ConfigNamespace env = inr ns
    /\ generateUnstructuredClusterYaml (c_YamlUnmarshal env) name = inr cluster
    /\ c_Create env ns cluster = inr u
    /\ obs = mkObs ("postgresclusters/" ++ GetName u ++ " created" ++ nl) [].
Proof.
  unfold run_create, createClusterRunE, bind, check, lift. cbn [nth].
  destruct (c_ConfigNamespace env) as [e|ns] eqn:E1; cbn; [discriminate|].
  destruct (c_ToRESTConfig env); cbn; [discriminate|].
  destruct (c_NewForConfig env); cbn; [discriminate|].
  destruct (generateUnstructuredClusterYaml (c_YamlUnmarshal env) name)
    as [e|cluster] eqn:E2; cbn; [discriminate|].
  destruct (c_Create env ns cluster) as [e|u] eqn:E3; cbn; [discriminate|].
  intros H. injection H as <-. now exists ns, cluster, u.
Qed.

Lemma create_prints_server_name_witness :
  exists ns cluster u,
    c_ConfigNamespace echo_create_env = inr ns
    /\ generateUnstructuredClusterYaml (c_YamlUnmarshal echo_create_env) "hippo"
       = inr cluster
    /\ c_Create echo_create_env ns cluster = inr u
    /\ mkObs ("postgresclusters/hippo created" ++ nl) []
       = mkObs ("postgresclusters/" ++ GetName u ++ " created" ++ nl) [].
Proof.
  apply (create_prints_server_name echo_create_env "hippo"). vm_compute. reflexivity.
Defined.

(** ** Further properties of the commands *)

(** The flag defaults of [newShowBackupCommand] (show.go, lines 82-85):
    [--output] defaults to ["text"], [--repoName] to [""]. *)
Definition output_default : string := "text".
Definition repoName_default : string := "".

(** Every run of [show backup] either fails before any effect, or gets past
    every setup step with exactly one pod found. *)
Lemma show_backup_cases env output repoName name :
  (exists e, run_show_backup env output repoName [name] = (obs0, inl e))
  \/ (exists ns p, ToRESTConfig env = None /\ NewForConfig env = None
       /\ ConfigNamespace env = inr ns
       /\ ListPods env ns (PrimaryInstanceLabels name) = inr [p]
       /\ NewPodExecutor env = None).
Proof.
  unfold run_show_backup, showBackupRunE, bind, check, lift.
  destruct (ToRESTConfig env) as [e1|] eqn:H1; cbn -[PrimaryInstanceLabels]; [left; now exists e1|].
  destruct (NewForConfig env) as [e2|] eqn:H2; cbn -[PrimaryInstanceLabels]; [left; now exists e2|].
  destruct (ConfigNamespace env) as [e3|ns] eqn:H3; cbn -[PrimaryInstanceLabels]; [left; now exists e3|].
  destruct (ListPods env ns (PrimaryInstanceLabels name)) as [e4|pods] eqn:H4;
    cbn -[PrimaryInstanceLabels]; [left; now exists e4|].
  destruct pods as [|p [|q pods]]; cbn -[PrimaryInstanceLabels]; [left; now eexists | | left; now eexists].
  destruct (NewPodExecutor env) as [e5|] eqn:H5; cbn -[PrimaryInstanceLabels]; [left; now exists e5|].
  right. now exists ns, p.
Qed.

(** X1: [show backup] prints nothing in any run that ends in an error. *)
Theorem show_backup_error_prints_nothing env output repoName name obs e :
  run_show_backup env output repoName [name] = (obs, inl e) ->
  printed obs = EmptyString.
Proof.
  intros Hrun.
  destruct (show_backup_cases env output repoName name)
    as [[e' Hf] | (ns & p & H1 & H2 & H3 & H4 & H5)].
  - rewrite Hf in Hrun. now injection Hrun as <- _.
  - rewrite (showBackup_one_pod env output repoName name ns p H1 H2 H3 H4 H5) in Hrun.
    cbv zeta in Hrun.
    destruct (res_err _) eqn:Hr; [now injection Hrun as <- _ | discriminate Hrun].
Qed.

Lemma show_backup_error_prints_nothing_witness :
  printed (fst (run_show_backup
                  (mock_show_env [hippo_pod]
                     (mkExecResult "partial" "" (Some (GoError "error dialing backend"))))
                  "text" "" ["hippo"])) = EmptyString.
Proof.
  apply (show_backup_error_prints_nothing
           (mock_show_env [hippo_pod]
              (mkExecResult "partial" "" (Some (GoError "error dialing backend"))))
           "text" "" "hippo" _ (GoError "error dialing backend")).
  reflexivity.
Defined.

(** X2: [show backup] calls the pod exec transport at most once, and only
    after every setup step succeeded and the lookup in the configured
    namespace found exactly one pod; the call goes to that pod's own
    namespace and name, in the database container, with the pgbackrest
    command vector. *)
Theorem show_backup_exec_discipline env output repoName name :
  exec_log (fst (run_show_backup env output repoName [name])) = []
  \/ exists ns p,
       ToRESTConfig env = None /\ NewForConfig env = None
       /\ ConfigNamespace env = inr ns
       /\ ListPods env ns (PrimaryInstanceLabels name) = inr [p]
       /\ NewPodExecutor env = None
       /\ exec_log (fst (run_show_backup env output repoName [name]))
          = [(pod_namespace p, pod_name p, ContainerDatabase,
              info_argv output (TrimPrefix repoName "repo"))].
Proof.
  destruct (show_backup_cases env output repoName name)
    as [[e Hf] | (ns & p & H1 & H2 & H3 & H4 & H5)].
  - left. now rewrite Hf.
  - right. exists ns, p. repeat split; try assumption.
    rewrite (showBackup_one_pod env output repoName name ns p H1 H2 H3 H4 H5).
    reflexivity.
Qed.

(** X3: with both flags at their defaults, [show backup] runs exactly
    [pgbackrest info --output=text] (no [--repo]) in the primary pod. *)
Theorem show_backup_default_flags env name ns p :
  ToRESTConfig env = None -> NewForConfig env = None ->
  ConfigNamespace env = inr ns ->
  ListPods env ns (PrimaryInstanceLabels name) = inr [p] ->
  NewPodExecutor env = None ->
  exec_log (fst (run_show_backup env output_default repoName_default [name]))
  = [(pod_namespace p, pod_name p, ContainerDatabase,
      ["bash"; "-ceu"; "--"; "pgbackrest info --output=text"])].
Proof.
  intros H1 H2 H3 H4 H5.
  rewrite (showBackup_exec_log env output_default repoName_default name ns p
             H1 H2 H3 H4 H5).
  reflexivity.
Qed.

Lemma show_backup_default_flags_witness :
  exec_log (fst (run_show_backup (mock_show_env [hippo_pod] (mkExecResult "" "" None))
                   output_default repoName_default ["hippo"]))
  = [(pod_namespace hippo_pod, pod_name hippo_pod, ContainerDatabase,
      ["bash"; "-ceu"; "--"; "pgbackrest info --output=text"])].
Proof.
  apply (show_backup_default_flags _ "hippo" "postgres-operator" hippo_pod);
    reflexivity.
Defined.

(** X5: [--repoName=repo<s>] and [--repoName=<s>] give the same run when
    [s] does not itself start with "repo": the prefix is optional. *)
Theorem show_backup_repo_prefix_optional env output s args :
  String.prefix "repo" s = false ->
  run_show_backup env output ("repo" ++ s) args = run_show_backup env output s args.
Proof.
  intros Hp. unfold run_show_backup, showBackupRunE.
  rewrite TrimPrefix_repo, (TrimPrefix_not_prefix _ Hp). reflexivity.
Qed.

Lemma show_backup_repo_prefix_optional_witness :
  run_show_backup (mock_show_env [hippo_pod] (mkExecResult "info" "" None))
    "json" ("repo" ++ "2") ["hippo"]
  = run_show_backup (mock_show_env [hippo_pod] (mkExecResult "info" "" None))
      "json" "2" ["hippo"].
Proof. apply show_backup_repo_prefix_optional. reflexivity. Defined.

Lemma doPrintf_no_percent (f : nat) (s : string) :
  (String.length s <= f)%nat ->
  GoYaml.all_chars (fun c => negb (Ascii.eqb c "%")) s = true ->
  GoFmt.doPrintf f s = s.
Proof.
  revert f; induction s as [|c r IH]; intros f Hl Hs; destruct f as [|f];
    simpl in *; try reflexivity; try lia.
  apply andb_prop in Hs as [Hc Hr]. apply negb_true_iff in Hc. rewrite Hc.
  rewrite IH; [reflexivity | lia | exact Hr].
Qed.

(** X4: when the captured stdout has no ['%'] and the exec returned no
    error, [show backup] prints the stdout exactly as captured, followed by
    the "Error returned" line only when stderr is not empty. *)
Theorem show_backup_stdout_verbatim env output repoName name ns p out err :
  ToRESTConfig env = None -> NewForConfig env = None ->
  ConfigNamespace env = inr ns ->
  ListPods env ns (PrimaryInstanceLabels name) = inr [p] ->
  NewPodExecutor env = None ->
  PodExec env (pod_namespace p) (pod_name p) ContainerDatabase
    (info_argv output (TrimPrefix repoName "repo")) = mkExecResult out err None ->
  GoYaml.all_chars (fun c => negb (Ascii.eqb c "%")) out = true ->
  printed (fst (run_show_backup env output repoName [name]))
  = out ++ (if String.eqb err "" then EmptyString
            else nl ++ "Error returned: " ++ err ++ nl).
Proof.
  intros H1 H2 H3 H4 H5 Hx Hnp.
  rewrite (showBackup_one_pod env output repoName name ns p H1 H2 H3 H4 H5).
  cbv zeta. rewrite Hx. cbn [res_err res_stdout res_stderr fst printed].
  unfold show_output, GoFmt.Sprintf0.
  rewrite (doPrintf_no_percent _ out (le_n _) Hnp).
  destruct (String.eqb err ""); reflexivity.
Qed.

Lemma show_backup_stdout_verbatim_witness :
  printed (fst (run_show_backup
                  (mock_show_env [hippo_pod] (mkExecResult "stanza: db" "" None))
                  "text" "" ["hippo"])) = "stanza: db".
Proof.
  apply (show_backup_stdout_verbatim _ "text" "" "hippo" "postgres-operator" hippo_pod
           "stanza: db" ""); reflexivity.
Defined.

(** X6: [create postgrescluster] prints nothing in any run that ends in an
    error. *)
Theorem create_error_prints_nothing env name obs e :
  run_create env [name] = (obs, inl e) -> obs = obs0.
Proof.
  unfold run_create, createClusterRunE, bind, check, lift. cbn [nth].
  destruct (c_ConfigNamespace env) as [e1|ns]; cbn; [congruence|].
  destruct (c_ToRESTConfig env); cbn; [congruence|].
  destruct (c_NewForConfig env); cbn; [congruence|].
  destruct (generateUnstructuredClusterYaml (c_YamlUnmarshal env) name)
    as [e2|cluster]; cbn; [congruence|].
  destruct (c_Create env ns cluster) as [e3|u]; cbn; [congruence | discriminate].
Qed.

Lemma create_error_prints_nothing_witness :
  fst (run_create (mkCreateEnv (inr "postgres-operator") None None GoYaml.Unmarshal
                     (fun _ _ => inl (GoError "postgresclusters hippo already exists")))
                  ["hippo"]) = obs0.
Proof.
  apply (create_error_prints_nothing
           (mkCreateEnv (inr "postgres-operator") None None GoYaml.Unmarshal
              (fun _ _ => inl (GoError "postgresclusters hippo already exists")))
           "hippo" _
           (GoError "postgresclusters hippo already exists")).
  vm_compute. reflexivity.
Defined.

(** X7: when the YAML parse of the generated template fails,
    [create postgrescluster] returns that parse error and prints nothing; the
    outcome does not depend on the API server, whose [Create] is not
    reached. *)
Theorem create_parse_error env name ns e :
  c_ConfigNamespace env = inr ns -> c_ToRESTConfig env = None ->
  c_NewForConfig env = None ->
  c_YamlUnmarshal env (cluster_template name) = inl e ->
  run_create env [name] = (obs0, inl e).
Proof.
  intros H1 H2 H3 H4.
  unfold run_create, createClusterRunE, bind, check, lift,
    generateUnstructuredClusterYaml. cbn [nth].
  rewrite H1. cbn [ret]. rewrite H2, H3. cbn [ret]. rewrite H4. reflexivity.
Qed.

Lemma create_parse_error_witness :
  run_create (mkCreateEnv (inr "postgres-operator") None None GoYaml.Unmarshal
                (fun _ obj => inr obj)) ["a:b"]
  = (obs0, inl GoYaml.unmodelled).
Proof.
  apply (create_parse_error _ "a:b" "postgres-operator" GoYaml.unmodelled);
    [reflexivity | reflexivity | reflexivity | vm_compute; reflexivity].
Defined.

Lemma str_length_app (a b : string) :
  String.length (a ++ b) = (String.length a + String.length b)%nat.
Proof. induction a as [|c a IH]; simpl; [reflexivity | now rewrite IH]. Qed.

Lemma substring_app_l (a b : string) (m : nat) :
  substring (String.length a) m (a ++ b) = substring 0 m b.
Proof. induction a as [|c a IH]; simpl; [reflexivity | exact IH]. Qed.

Lemma substring_app_prefix (a b : string) :
  substring 0 (String.length a) (a ++ b) = a.
Proof.
  induction a as [|c a IH]; simpl; [now destruct b | now rewrite IH].
Qed.

Lemma extract_name_template (n : string) :
  GoYaml.extract_name (cluster_template n) = Some n.
Proof.
  unfold GoYaml.extract_name, cluster_template.
  rewrite prefix_app, substring_app_l,
    (substring_long (n ++ template_tail)) by (rewrite !str_length_app; lia).
  rewrite str_length_app.
  replace (String.length n + String.length template_tail
           - String.length template_tail)%nat with (String.length n) by lia.
  rewrite substring_app_l,
    (substring_long template_tail) by lia.
  rewrite String.eqb_refl, substring_app_prefix.
  replace (String.length template_tail <=? String.length n
           + String.length template_tail)%nat with true
    by (symmetry; apply Nat.leb_le; lia).
  reflexivity.
Qed.

(** X8: with yaml.v2's typing of plain scalars, every DNS-1123 label that
    starts with a letter and is not one of yaml.v2's boolean or null words
    (y, yes, true, on, n, no, false, off, null) yields the cluster of the
    template whose [metadata.name] is that string, and [GetName] gives the
    name back. *)
Theorem generate_letter_name n c r :
  n = String c r -> GoYaml.is_lower c = true -> GoYaml.dns_label n = true ->
  existsb (String.eqb n)
    ["y"; "yes"; "true"; "on"; "n"; "no"; "false"; "off"; "null"] = false ->
  generateUnstructuredClusterYaml GoYaml.Unmarshal n
  = inr (GoYaml.cluster_object (YStr n))
  /\ GetName (GoYaml.cluster_object (YStr n)) = n.
Proof.
  intros Hn Hc Hd Hw. split; [|reflexivity].
  unfold generateUnstructuredClusterYaml, GoYaml.Unmarshal.
  rewrite extract_name_template, Hd.
  unfold GoYaml.resolve_plain. cbn [existsb] in Hw |- *.
  apply orb_false_iff in Hw as [Hy Hw]. apply orb_false_iff in Hw as [Hyes Hw].
  apply orb_false_iff in Hw as [Htrue Hw]. apply orb_false_iff in Hw as [Hon Hw].
  apply orb_false_iff in Hw as [Hn' Hw]. apply orb_false_iff in Hw as [Hno Hw].
  apply orb_false_iff in Hw as [Hfalse Hw]. apply orb_false_iff in Hw as [Hoff Hw].
  apply orb_false_iff in Hw as [Hnull _].
  rewrite Hy, Hyes, Htrue, Hon, Hn', Hno, Hfalse, Hoff, Hnull. cbn [orb].
  subst n. cbn [GoYaml.resolve_plain].
  replace (GoFmt.is_digit c) with false; [reflexivity|].
  unfold GoYaml.is_lower, GoFmt.is_digit in *.
  apply andb_prop in Hc as [Hc1 _]. apply Nat.leb_le in Hc1.
  symmetry. apply andb_false_iff. right. apply Nat.leb_gt. lia.
Qed.

Lemma generate_letter_name_witness :
  generateUnstructuredClusterYaml GoYaml.Unmarshal "hippo-2"
  = inr (GoYaml.cluster_object (YStr "hippo-2"))
  /\ GetName (GoYaml.cluster_object (YStr "hippo-2")) = "hippo-2".
Proof.
  apply (generate_letter_name "hippo-2" "h" "ippo-2");
    [reflexivity | reflexivity | vm_compute; reflexivity | vm_compute; reflexivity].
Defined.
